(** * OpenTelemetry bootstrap for Flask and plain HTTP services

    A shallow embedding of [python/flask/otel.py] and [python/http/otel.py].
    Both files are straight-line compositions over the OpenTelemetry SDK and
    the standard [logging] and [os] modules.  The process state they act on
    (environment, global provider slots, provider objects, logger hierarchy)
    is made explicit as a record [World], and every function of the source
    becomes a computation in a state monad over it. *)

From Stdlib Require Import Ascii.
From stdpp Require Import base strings gmap list.

(** ** The state monad *)

Definition State (W A : Type) : Type := W → A * W.

Global Instance state_ret W : MRet (State W) := λ A x w, (x, w).
Global Instance state_bind W : MBind (State W) :=
  λ A B f m w, let '(a, w') := m w in f a w'.

Definition result {W A} (m : State W A) (w : W) : A := fst (m w).
Definition after {W A} (m : State W A) (w : W) : W := snd (m w).

(** ** Data model *)

(** Modelled from the spec: the constant [SERVICE_NAME] of
    [opentelemetry.sdk.resources] is imported, not defined, by the source;
    the spec names the key [service.name]. *)
Definition SERVICE_NAME : string := "service.name".

(** A resource object: its identity and the attribute mapping it was
    constructed with. *)
Record Resource := mkResource {
  resource_id : nat;
  attributes : gmap string string }.

Inductive signal := trace_signal | metric_signal | log_signal.

Inductive protocol := grpc | http.

(** What the source hands to an exporter constructor: the endpoint and, in
    the HTTP variant, the headers. *)
Record Exporter := mkExporter {
  exp_signal : signal;
  exp_protocol : protocol;
  exp_endpoint : string;
  exp_headers : option (gmap string string) }.

Inductive Processor :=
| BatchSpanProcessor (e : Exporter)
| PeriodicExportingMetricReader (e : Exporter)
| BatchLogRecordProcessor (e : Exporter).

Definition exporter_of (p : Processor) : Exporter :=
  match p with
  | BatchSpanProcessor e => e
  | PeriodicExportingMetricReader e => e
  | BatchLogRecordProcessor e => e
  end.

(** A provider object as stored on the heap. *)
Record Provider := mkProvider {
  prov_signal : signal;
  prov_resource : Resource;
  prov_processors : list Processor }.

(** Handles returned to the caller. *)
Record Tracer := mkTracer {
  tracer_module : string;
  tracer_provider : option nat }.

Record Meter := mkMeter {
  meter_module : string;
  meter_provider : option nat }.

(** [logging]: levels, handlers, loggers. *)
Definition NOTSET : nat := 0.
Definition DEBUG : nat := 10.
Definition INFO : nat := 20.
Definition WARNING : nat := 30.

(** A handler object.  [hdlr_provider] is the logger provider a
    [LoggingHandler] forwards to; handlers of other classes have none. *)
Record Handler := mkHandler {
  hdlr_id : nat;
  hdlr_level : nat;
  hdlr_provider : option nat }.

Global Instance Handler_eq_dec : EqDecision Handler.
Proof. solve_decision. Defined.

Record Logger := mkLogger {
  level : nat;
  handlers : list Handler;
  propagate : bool }.

(** What [logging.getLogger] returns: the root logger or a named one. *)
Inductive LoggerRef :=
| RootLogger
| NamedLogger (name : string).

Record FlaskApp := mkFlaskApp { import_name : string }.

(** Calls into the instrumentation libraries and into the global setters,
    in the order they happen. *)
Inductive Call :=
| InstrumentFlaskApp (app : FlaskApp)
| InstrumentRequests
| InstrumentURLLib3
| InstrumentLogging (set_logging_format : bool)
| SetTracerProvider (p : nat)
| SetMeterProvider (p : nat)
| SetLoggerProvider (p : nat).

(** The process state. *)
Record World := mkWorld {
  environ : gmap string string;
  next_id : nat;
  providers : gmap nat Provider;
  TRACER_PROVIDER : option nat;
  METER_PROVIDER : option nat;
  LOGGER_PROVIDER : option nat;
  root : Logger;
  loggerDict : gmap string Logger;
  calls : list Call }.

Abbreviation M := (State World).

(** A process that has just started: nothing registered, the root logger
    at its default level. *)
Definition boot (env : gmap string string) : World :=
  {| environ := env; next_id := 0; providers := ∅;
     TRACER_PROVIDER := None; METER_PROVIDER := None; LOGGER_PROVIDER := None;
     root := {| level := WARNING; handlers := []; propagate := true |};
     loggerDict := ∅; calls := [] |}.

(** Field updates. *)
Definition with_next_id (n : nat) (w : World) : World :=
  {| environ := environ w; next_id := n; providers := providers w;
     TRACER_PROVIDER := TRACER_PROVIDER w; METER_PROVIDER := METER_PROVIDER w;
     LOGGER_PROVIDER := LOGGER_PROVIDER w; root := root w;
     loggerDict := loggerDict w; calls := calls w |}.

Definition with_providers (h : gmap nat Provider) (w : World) : World :=
  {| environ := environ w; next_id := next_id w; providers := h;
     TRACER_PROVIDER := TRACER_PROVIDER w; METER_PROVIDER := METER_PROVIDER w;
     LOGGER_PROVIDER := LOGGER_PROVIDER w; root := root w;
     loggerDict := loggerDict w; calls := calls w |}.

Definition with_TRACER_PROVIDER (p : option nat) (w : World) : World :=
  {| environ := environ w; next_id := next_id w; providers := providers w;
     TRACER_PROVIDER := p; METER_PROVIDER := METER_PROVIDER w;
     LOGGER_PROVIDER := LOGGER_PROVIDER w; root := root w;
     loggerDict := loggerDict w; calls := calls w |}.

Definition with_METER_PROVIDER (p : option nat) (w : World) : World :=
  {| environ := environ w; next_id := next_id w; providers := providers w;
     TRACER_PROVIDER := TRACER_PROVIDER w; METER_PROVIDER := p;
     LOGGER_PROVIDER := LOGGER_PROVIDER w; root := root w;
     loggerDict := loggerDict w; calls := calls w |}.

Definition with_LOGGER_PROVIDER (p : option nat) (w : World) : World :=
  {| environ := environ w; next_id := next_id w; providers := providers w;
     TRACER_PROVIDER := TRACER_PROVIDER w; METER_PROVIDER := METER_PROVIDER w;
     LOGGER_PROVIDER := p; root := root w;
     loggerDict := loggerDict w; calls := calls w |}.

Definition with_root (l : Logger) (w : World) : World :=
  {| environ := environ w; next_id := next_id w; providers := providers w;
     TRACER_PROVIDER := TRACER_PROVIDER w; METER_PROVIDER := METER_PROVIDER w;
     LOGGER_PROVIDER := LOGGER_PROVIDER w; root := l;
     loggerDict := loggerDict w; calls := calls w |}.

Definition with_loggerDict (d : gmap string Logger) (w : World) : World :=
  {| environ := environ w; next_id := next_id w; providers := providers w;
     TRACER_PROVIDER := TRACER_PROVIDER w; METER_PROVIDER := METER_PROVIDER w;
     LOGGER_PROVIDER := LOGGER_PROVIDER w; root := root w;
     loggerDict := d; calls := calls w |}.

Definition with_calls (c : list Call) (w : World) : World :=
  {| environ := environ w; next_id := next_id w; providers := providers w;
     TRACER_PROVIDER := TRACER_PROVIDER w; METER_PROVIDER := METER_PROVIDER w;
     LOGGER_PROVIDER := LOGGER_PROVIDER w; root := root w;
     loggerDict := loggerDict w; calls := c |}.

(** ** Primitives of the runtime and of the SDK *)

(** Object allocation: every constructed object gets the next identity. *)
Definition fresh : M nat := λ w, (next_id w, with_next_id (S (next_id w)) w).

Definition record_call (c : Call) : M unit :=
  λ w, (tt, with_calls (calls w ++ [c]) w).

(** [os.environ.get(key, default)] and [os.environ.get(key)]. *)
Definition os_environ_get_default (key dflt : string) : M string :=
  λ w, (default dflt (environ w !! key), w).

Definition os_environ_get (key : string) : M (option string) :=
  λ w, (environ w !! key, w).

(** The instrumentors hook into third-party libraries; of their effect only
    the activation itself is kept. *)
Definition FlaskInstrumentor_instrument_app (app : FlaskApp) : M unit :=
  record_call (InstrumentFlaskApp app).

Definition RequestsInstrumentor_instrument : M unit :=
  record_call InstrumentRequests.

Definition URLLib3Instrumentor_instrument : M unit :=
  record_call InstrumentURLLib3.

Definition LoggingInstrumentor_instrument (set_logging_format : bool) : M unit :=
  record_call (InstrumentLogging set_logging_format).

(** [Resource(attributes=attrs)]. *)
Definition new_Resource (attrs : gmap string string) : M Resource :=
  i ← fresh; mret {| resource_id := i; attributes := attrs |}.

(** Provider constructors: allocate the object on the heap and return a
    reference to it. *)
Definition new_provider (p : Provider) : M nat :=
  i ← fresh;
  ((λ w, (i, with_providers (<[i := p]> (providers w)) w)) : M nat).

Definition TracerProvider (resource : Resource) : M nat :=
  new_provider {| prov_signal := trace_signal; prov_resource := resource;
                  prov_processors := [] |}.

Definition MeterProvider (resource : Resource) (metric_readers : list Processor)
  : M nat :=
  new_provider {| prov_signal := metric_signal; prov_resource := resource;
                  prov_processors := metric_readers |}.

Definition LoggerProvider (resource : Resource) : M nat :=
  new_provider {| prov_signal := log_signal; prov_resource := resource;
                  prov_processors := [] |}.

(** [provider.add_span_processor(p)] and
    [provider.add_log_record_processor(p)] mutate the provider object. *)
Definition add_processor (q : Processor) (p : Provider) : Provider :=
  {| prov_signal := prov_signal p; prov_resource := prov_resource p;
     prov_processors := prov_processors p ++ [q] |}.

Definition add_span_processor (prov : nat) (q : Processor) : M unit :=
  λ w, (tt, with_providers (alter (add_processor q) prov (providers w)) w).

Definition add_log_record_processor (prov : nat) (q : Processor) : M unit :=
  λ w, (tt, with_providers (alter (add_processor q) prov (providers w)) w).

(** Modelled from the spec: [trace.set_tracer_provider] belongs to the
    OpenTelemetry API package, which is not part of the source tree.  The
    spec describes the registration as a single slot per signal kind with
    last-write-wins semantics, a new provider overwriting any previously
    installed one. *)
Definition set_tracer_provider (p : nat) : M unit :=
  λ w, (tt, with_TRACER_PROVIDER (Some p)
              (with_calls (calls w ++ [SetTracerProvider p]) w)).

(** Modelled from the spec: [metrics.set_meter_provider], likewise absent
    from the source tree; the same single overwritten slot, for metrics. *)
Definition set_meter_provider (p : nat) : M unit :=
  λ w, (tt, with_METER_PROVIDER (Some p)
              (with_calls (calls w ++ [SetMeterProvider p]) w)).

(** Modelled from the spec: [set_logger_provider] of [opentelemetry._logs],
    likewise absent from the source tree; the same single overwritten slot,
    for logs. *)
Definition set_logger_provider (p : nat) : M unit :=
  λ w, (tt, with_LOGGER_PROVIDER (Some p)
              (with_calls (calls w ++ [SetLoggerProvider p]) w)).

(** [trace.get_tracer(name)] and [metrics.get_meter(name)] hand out a handle
    bound to whatever provider is registered at the time of the call. *)
Definition get_tracer (name : string) : M Tracer :=
  λ w, ({| tracer_module := name; tracer_provider := TRACER_PROVIDER w |}, w).

Definition get_meter (name : string) : M Meter :=
  λ w, ({| meter_module := name; meter_provider := METER_PROVIDER w |}, w).

(** [LoggingHandler(level=lvl, logger_provider=p)]. *)
Definition LoggingHandler (lvl : nat) (logger_provider : nat) : M Handler :=
  i ← fresh;
  mret {| hdlr_id := i; hdlr_level := lvl; hdlr_provider := Some logger_provider |}.

(** [logging.getLogger(name)]: the root logger for no name, an empty name or
    the root's own name; otherwise the logger registered under [name],
    created with default settings on first use. *)
Definition new_logger : Logger :=
  {| level := NOTSET; handlers := []; propagate := true |}.

Definition is_root_name (n : string) : bool :=
  bool_decide (n = "") || bool_decide (n = "root").

Definition register (n : string) (d : gmap string Logger) : gmap string Logger :=
  match d !! n with
  | Some _ => d
  | None => <[n := new_logger]> d
  end.

Definition getLogger (name : option string) : M LoggerRef :=
  λ w,
    match name with
    | None => (RootLogger, w)
    | Some n =>
        if is_root_name n then (RootLogger, w)
        else (NamedLogger n, with_loggerDict (register n (loggerDict w)) w)
    end.

Definition update_logger (r : LoggerRef) (f : Logger → Logger) : M unit :=
  λ w,
    match r with
    | RootLogger => (tt, with_root (f (root w)) w)
    | NamedLogger n => (tt, with_loggerDict (alter f n (loggerDict w)) w)
    end.

(** [logger.addHandler(h)]: appended unless already attached. *)
Definition attach (h : Handler) (l : Logger) : Logger :=
  {| level := level l;
     handlers := if bool_decide (h ∈ handlers l) then handlers l
                 else handlers l ++ [h];
     propagate := propagate l |}.

Definition addHandler (r : LoggerRef) (h : Handler) : M unit :=
  update_logger r (attach h).

(** [logger.setLevel(lvl)]. *)
Definition setLevel (r : LoggerRef) (lvl : nat) : M unit :=
  update_logger r (λ l, {| level := lvl; handlers := handlers l;
                           propagate := propagate l |}).

(** ** Record delivery in [logging] *)

(** [s.rfind(".", 0, hi)]: the last position below [hi] that holds a dot.
    [pos] is the position of the head of [s], [last] the best so far. *)
Fixpoint rfind_dot (s : string) (pos hi : nat) (last : option nat)
  : option nat :=
  match s with
  | EmptyString => last
  | String c s' =>
      if bool_decide (pos < hi)
      then rfind_dot s' (S pos) hi
             (if bool_decide (c = "."%char) then Some pos else last)
      else last
  end.

(** The names under which [logging] looks for the ancestors of a logger,
    nearest first: [name[:i]] for [i = name.rfind(".")] and then
    [i = name.rfind(".", 0, i - 1)], as long as [i > 0].  [a.b.c] has [a.b]
    and [a]. *)
Fixpoint dotted_prefixes_from (fuel : nat) (name : string) (i : option nat)
  : list string :=
  match fuel, i with
  | S fuel', Some (S j) =>
      String.substring 0 (S j) name
        :: dotted_prefixes_from fuel' name (rfind_dot name 0 j None)
  | _, _ => []
  end.

Definition dotted_prefixes (name : string) : list string :=
  dotted_prefixes_from (String.length name) name
    (rfind_dot name 0 (String.length name) None).

(** The chain a record walks: the logger itself, its registered dotted
    ancestors from the nearest one up, and the root. *)
Definition chain (w : World) (r : LoggerRef) : list Logger :=
  match r with
  | RootLogger => [root w]
  | NamedLogger n =>
      match loggerDict w !! n with
      | Some l => l :: omap (λ p, loggerDict w !! p) (dotted_prefixes n)
                    ++ [root w]
      | None => []
      end
  end.

(** [Logger.callHandlers]: every handler on the way up whose level admits
    the record, stopping after a logger that does not propagate. *)
Fixpoint callHandlers (c : list Logger) (levelno : nat) : list Handler :=
  match c with
  | [] => []
  | l :: up =>
      filter (λ h, (hdlr_level h ≤ levelno)%nat) (handlers l)
        ++ (if propagate l then callHandlers up levelno else [])
  end.

(** [Logger.getEffectiveLevel]: the first level on the way up that is set. *)
Fixpoint getEffectiveLevel (c : list Logger) : nat :=
  match c with
  | [] => NOTSET
  | l :: up => if bool_decide (level l = NOTSET) then getEffectiveLevel up
               else level l
  end.

(** [logger.log(levelno, msg)]: the attached handlers that receive the
    record.  Filters, disabled loggers and the last-resort handler, which is
    attached to no logger, are left out. *)
Definition log (w : World) (r : LoggerRef) (levelno : nat) : list Handler :=
  if bool_decide (getEffectiveLevel (chain w r) ≤ levelno)%nat
  then callHandlers (chain w r) levelno
  else [].

(** ** [python/flask/otel.py] *)

Module Flask.

(** Exporters of [opentelemetry.exporter.otlp.proto.grpc], constructed from
    an endpoint alone. *)
Definition OTLPSpanExporter (endpoint : string) : Exporter :=
  {| exp_signal := trace_signal; exp_protocol := grpc;
     exp_endpoint := endpoint; exp_headers := None |}.

Definition OTLPMetricExporter (endpoint : string) : Exporter :=
  {| exp_signal := metric_signal; exp_protocol := grpc;
     exp_endpoint := endpoint; exp_headers := None |}.

Definition OTLPLogExporter (endpoint : string) : Exporter :=
  {| exp_signal := log_signal; exp_protocol := grpc;
     exp_endpoint := endpoint; exp_headers := None |}.

Section otel.

(** The name under which the module was imported. *)
Variable __name__ : string.

Definition setup_tracing (resource : Resource) (otlp_endpoint : string)
  : M Tracer :=
  trace_provider ← TracerProvider resource;
  let otlp_exporter := OTLPSpanExporter otlp_endpoint in
  let otlp_processor := BatchSpanProcessor otlp_exporter in
  add_span_processor trace_provider otlp_processor;;
  set_tracer_provider trace_provider;;
  get_tracer __name__.

Definition setup_metrics (resource : Resource) (otlp_endpoint : string)
  : M Meter :=
  let metric_reader :=
    PeriodicExportingMetricReader (OTLPMetricExporter otlp_endpoint) in
  meter_provider ← MeterProvider resource [metric_reader];
  set_meter_provider meter_provider;;
  get_meter __name__.

Definition setup_logging (resource : Resource) (otlp_endpoint : string)
  : M LoggerRef :=
  logger_provider ← LoggerProvider resource;
  set_logger_provider logger_provider;;
  add_log_record_processor logger_provider
    (BatchLogRecordProcessor (OTLPLogExporter otlp_endpoint));;
  handler ← LoggingHandler NOTSET logger_provider;
  root_logger ← getLogger None;
  addHandler root_logger handler;;
  root_logger ← getLogger None;
  setLevel root_logger INFO;;
  LoggingInstrumentor_instrument true;;
  getLogger (Some __name__).

Definition setup_instrumentation (app : FlaskApp) (service_name : string)
  : M (LoggerRef * Tracer * Meter) :=
  FlaskInstrumentor_instrument_app app;;
  resource ← new_Resource {[ SERVICE_NAME := service_name ]};
  otlp_endpoint ←
    os_environ_get_default "OTEL_EXPORTER_OTLP_ENDPOINT" "http://localhost:4317";
  tracer ← setup_tracing resource otlp_endpoint;
  meter ← setup_metrics resource otlp_endpoint;
  logger ← setup_logging resource otlp_endpoint;
  mret (logger, tracer, meter).

End otel.

End Flask.

(** ** [python/http/otel.py] *)

Module Http.

(** Exporters of [opentelemetry.exporter.otlp.proto.http], constructed from
    an endpoint and headers. *)
Definition OTLPSpanExporter (endpoint : string) (headers : gmap string string)
  : Exporter :=
  {| exp_signal := trace_signal; exp_protocol := http;
     exp_endpoint := endpoint; exp_headers := Some headers |}.

Definition OTLPMetricExporter (endpoint : string) (headers : gmap string string)
  : Exporter :=
  {| exp_signal := metric_signal; exp_protocol := http;
     exp_endpoint := endpoint; exp_headers := Some headers |}.

Definition OTLPLogExporter (endpoint : string) (headers : gmap string string)
  : Exporter :=
  {| exp_signal := log_signal; exp_protocol := http;
     exp_endpoint := endpoint; exp_headers := Some headers |}.

(** Truth value of an optional string: [None] and the empty string are
    false. *)
Definition truthy (s : option string) : bool :=
  match s with
  | None => false
  | Some t => negb (bool_decide (t = ""))
  end.

Definition _create_otlp_headers (target_package : string)
    (bearer_token : option string) : gmap string string :=
  let headers : gmap string string :=
    {[ "x-observe-target-package" := target_package ]} in
  if truthy bearer_token
  then <[ "Authorization" := "Bearer " +:+ default "" bearer_token ]> headers
  else headers.

Section otel.

Variable __name__ : string.

Definition setup_tracing (resource : Resource) (otlp_endpoint : string)
    (bearer_token : option string) : M Tracer :=
  let headers := _create_otlp_headers "Tracing" bearer_token in
  trace_provider ← TracerProvider resource;
  let otlp_exporter :=
    OTLPSpanExporter (otlp_endpoint +:+ "/v1/traces") headers in
  let otlp_processor := BatchSpanProcessor otlp_exporter in
  add_span_processor trace_provider otlp_processor;;
  set_tracer_provider trace_provider;;
  get_tracer __name__.

Definition setup_metrics (resource : Resource) (otlp_endpoint : string)
    (bearer_token : option string) : M Meter :=
  let headers := _create_otlp_headers "Metrics" bearer_token in
  let metric_reader :=
    PeriodicExportingMetricReader
      (OTLPMetricExporter (otlp_endpoint +:+ "/v1/metrics") headers) in
  meter_provider ← MeterProvider resource [metric_reader];
  set_meter_provider meter_provider;;
  get_meter __name__.

Definition setup_logging (resource : Resource) (otlp_endpoint : string)
    (bearer_token : option string) : M LoggerRef :=
  let headers := _create_otlp_headers "Logs" bearer_token in
  logger_provider ← LoggerProvider resource;
  set_logger_provider logger_provider;;
  add_log_record_processor logger_provider
    (BatchLogRecordProcessor
       (OTLPLogExporter (otlp_endpoint +:+ "/v1/logs") headers));;
  handler ← LoggingHandler NOTSET logger_provider;
  root_logger ← getLogger None;
  addHandler root_logger handler;;
  root_logger ← getLogger None;
  setLevel root_logger INFO;;
  LoggingInstrumentor_instrument true;;
  getLogger (Some __name__).

Definition setup_instrumentation (service_name : string)
  : M (LoggerRef * Tracer * Meter) :=
  RequestsInstrumentor_instrument;;
  URLLib3Instrumentor_instrument;;
  resource ← new_Resource {[ SERVICE_NAME := service_name ]};
  otlp_endpoint ←
    os_environ_get_default "OTEL_EXPORTER_OTLP_ENDPOINT" "http://localhost:4318";
  bearer_token ← os_environ_get "OTEL_EXPORTER_OTLP_BEARER_TOKEN";
  tracer ← setup_tracing resource otlp_endpoint bearer_token;
  meter ← setup_metrics resource otlp_endpoint bearer_token;
  logger ← setup_logging resource otlp_endpoint bearer_token;
  mret (logger, tracer, meter).

End otel.

End Http.

(** * Observations on the process state *)

(** [trace.get_tracer_provider()] and its siblings: the provider object
    currently registered for a signal, if any. *)
Definition get_tracer_provider (w : World) : option Provider :=
  TRACER_PROVIDER w ≫= λ p, providers w !! p.

Definition get_meter_provider (w : World) : option Provider :=
  METER_PROVIDER w ≫= λ p, providers w !! p.

Definition get_logger_provider (w : World) : option Provider :=
  LOGGER_PROVIDER w ≫= λ p, providers w !! p.

(** The exporters behind a provider. *)
Definition exporters (p : option Provider) : list Exporter :=
  match p with
  | Some q => exporter_of <$> prov_processors q
  | None => []
  end.

(** The resource an orchestrator run allocating from [n] constructs. *)
Definition service_resource (n : nat) (service_name : string) : Resource :=
  {| resource_id := n; attributes := {[ SERVICE_NAME := service_name ]} |}.

(** The handler a logging setup constructs for the provider [p]. *)
Definition bridge (p : nat) : Handler :=
  {| hdlr_id := S p; hdlr_level := NOTSET; hdlr_provider := Some p |}.

(** The reference [logging.getLogger(name)] evaluates to. *)
Definition logger_ref (name : string) : LoggerRef :=
  if is_root_name name then RootLogger else NamedLogger name.

(** [logging.getLogger(name).propagate = False]. *)
Definition stop_propagation (name : string) (w : World) : World :=
  with_loggerDict
    (alter (λ l, {| level := level l; handlers := handlers l;
                    propagate := false |}) name (loggerDict w)) w.

(** The endpoint each variant resolves from the environment. *)
Definition resolved (dflt : string) (w : World) : string :=
  default dflt (environ w !! "OTEL_EXPORTER_OTLP_ENDPOINT").

(** What a second orchestrator run, with service name [s2], leaves of the
    first when judged from the state [w1] between the runs and the state
    [w2] after both: other providers are registered, they carry the second
    resource alone, and the earlier provider objects are still on the heap,
    referenced by no slot. *)
Definition replaced (w1 w2 : World) (s2 : string) : Prop :=
  (TRACER_PROVIDER w2 ≠ TRACER_PROVIDER w1
   ∧ METER_PROVIDER w2 ≠ METER_PROVIDER w1
   ∧ LOGGER_PROVIDER w2 ≠ LOGGER_PROVIDER w1)
  ∧ (attributes ∘ prov_resource <$> get_tracer_provider w2
       = Some {[ SERVICE_NAME := s2 ]}
     ∧ attributes ∘ prov_resource <$> get_meter_provider w2
       = Some {[ SERVICE_NAME := s2 ]}
     ∧ attributes ∘ prov_resource <$> get_logger_provider w2
       = Some {[ SERVICE_NAME := s2 ]})
  ∧ (is_Some (get_tracer_provider w1)
     ∧ is_Some (get_meter_provider w1)
     ∧ is_Some (get_logger_provider w1))
  ∧ (TRACER_PROVIDER w1 ≫= (λ p, providers w2 !! p) = get_tracer_provider w1
     ∧ METER_PROVIDER w1 ≫= (λ p, providers w2 !! p) = get_meter_provider w1
     ∧ LOGGER_PROVIDER w1 ≫= (λ p, providers w2 !! p) = get_logger_provider w1).

(** The root logger as a logging setup for the provider [p] leaves it: at
    level [INFO], with the bridge to [p] among its handlers, [p] being the
    registered log provider. *)
Definition root_bridged (p : nat) (w' : World) : Prop :=
  level (root w') = INFO
  ∧ (level (root w') ≤ INFO)%nat
  ∧ bridge p ∈ handlers (root w')
  ∧ hdlr_provider (bridge p) = LOGGER_PROVIDER w'
  ∧ prov_signal <$> get_logger_provider w' = Some log_signal.


(** [os.environ[key] = value], done before the bootstrap runs. *)
Definition setenv (key value : string) (w : World) : World :=
  {| environ := <[key := value]> (environ w); next_id := next_id w;
     providers := providers w;
     TRACER_PROVIDER := TRACER_PROVIDER w; METER_PROVIDER := METER_PROVIDER w;
     LOGGER_PROVIDER := LOGGER_PROVIDER w; root := root w;
     loggerDict := loggerDict w; calls := calls w |}.

(** The headers the HTTP variant sends for a signal when it authenticates
    with the token [T]. *)
Definition authenticated (label T : string) : gmap string string :=
  <[ "Authorization" := "Bearer " +:+ T ]>
    {[ "x-observe-target-package" := label ]}.

(** * Symbolic execution *)

Lemma World_ext (w1 w2 : World) :
  environ w1 = environ w2 → next_id w1 = next_id w2 →
  providers w1 = providers w2 →
  TRACER_PROVIDER w1 = TRACER_PROVIDER w2 →
  METER_PROVIDER w1 = METER_PROVIDER w2 →
  LOGGER_PROVIDER w1 = LOGGER_PROVIDER w2 →
  root w1 = root w2 → loggerDict w1 = loggerDict w2 → calls w1 = calls w2 →
  w1 = w2.
Proof. destruct w1, w2; cbn; intros; subst; reflexivity. Qed.

Lemma run_ext {A} (r1 r2 : A * World) :
  r1.1 = r2.1 → r1.2 = r2.2 → r1 = r2.
Proof. destruct r1, r2; cbn; intros; subst; reflexivity. Qed.

(** Unfold the primitives; the state stays a stack of field updates that
    [cbn] reads field by field. *)
Ltac run_prims :=
  unfold FlaskInstrumentor_instrument_app, RequestsInstrumentor_instrument,
    URLLib3Instrumentor_instrument, LoggingInstrumentor_instrument,
    new_Resource, TracerProvider, MeterProvider, LoggerProvider, new_provider,
    add_span_processor, add_log_record_processor, set_tracer_provider,
    set_meter_provider, set_logger_provider, get_tracer, get_meter,
    LoggingHandler, addHandler, setLevel, update_logger, getLogger, fresh,
    record_call, os_environ_get_default, os_environ_get;
  unfold mbind, state_bind, mret, state_ret;
  cbn.

Ltac run_eq := apply run_ext; [cbn | apply World_ext; cbn].

Lemma flask_setup_tracing_run name res ep w :
  Flask.setup_tracing name res ep w =
  ({| tracer_module := name; tracer_provider := Some (next_id w) |},
   {| environ := environ w; next_id := S (next_id w);
      providers :=
        <[next_id w :=
            {| prov_signal := trace_signal; prov_resource := res;
               prov_processors :=
                 [BatchSpanProcessor (Flask.OTLPSpanExporter ep)] |}]>
          (providers w);
      TRACER_PROVIDER := Some (next_id w);
      METER_PROVIDER := METER_PROVIDER w;
      LOGGER_PROVIDER := LOGGER_PROVIDER w;
      root := root w; loggerDict := loggerDict w;
      calls := calls w ++ [SetTracerProvider (next_id w)] |}).
Proof.
  unfold Flask.setup_tracing. run_prims. run_eq; try reflexivity.
  rewrite alter_insert_eq. reflexivity.
Qed.

Lemma flask_setup_metrics_run name res ep w :
  Flask.setup_metrics name res ep w =
  ({| meter_module := name; meter_provider := Some (next_id w) |},
   {| environ := environ w; next_id := S (next_id w);
      providers :=
        <[next_id w :=
            {| prov_signal := metric_signal; prov_resource := res;
               prov_processors :=
                 [PeriodicExportingMetricReader (Flask.OTLPMetricExporter ep)] |}]>
          (providers w);
      TRACER_PROVIDER := TRACER_PROVIDER w;
      METER_PROVIDER := Some (next_id w);
      LOGGER_PROVIDER := LOGGER_PROVIDER w;
      root := root w; loggerDict := loggerDict w;
      calls := calls w ++ [SetMeterProvider (next_id w)] |}).
Proof. unfold Flask.setup_metrics. run_prims. reflexivity. Qed.

Lemma flask_setup_logging_run name res ep w :
  Flask.setup_logging name res ep w =
  (logger_ref name,
   {| environ := environ w; next_id := S (S (next_id w));
      providers :=
        <[next_id w :=
            {| prov_signal := log_signal; prov_resource := res;
               prov_processors :=
                 [BatchLogRecordProcessor (Flask.OTLPLogExporter ep)] |}]>
          (providers w);
      TRACER_PROVIDER := TRACER_PROVIDER w;
      METER_PROVIDER := METER_PROVIDER w;
      LOGGER_PROVIDER := Some (next_id w);
      root := {| level := INFO;
                 handlers := handlers (attach (bridge (next_id w)) (root w));
                 propagate := propagate (root w) |};
      loggerDict := if is_root_name name then loggerDict w
                    else register name (loggerDict w);
      calls := calls w ++ [SetLoggerProvider (next_id w);
                           InstrumentLogging true] |}).
Proof.
  unfold Flask.setup_logging, logger_ref. run_prims.
  destruct (is_root_name name); run_eq; try reflexivity;
    first [rewrite alter_insert_eq | rewrite <- app_assoc]; reflexivity.
Qed.

Lemma http_setup_tracing_run name res ep tok w :
  Http.setup_tracing name res ep tok w =
  ({| tracer_module := name; tracer_provider := Some (next_id w) |},
   {| environ := environ w; next_id := S (next_id w);
      providers :=
        <[next_id w :=
            {| prov_signal := trace_signal; prov_resource := res;
               prov_processors :=
                 [BatchSpanProcessor
                    (Http.OTLPSpanExporter (ep +:+ "/v1/traces")
                       (Http._create_otlp_headers "Tracing" tok))] |}]>
          (providers w);
      TRACER_PROVIDER := Some (next_id w);
      METER_PROVIDER := METER_PROVIDER w;
      LOGGER_PROVIDER := LOGGER_PROVIDER w;
      root := root w; loggerDict := loggerDict w;
      calls := calls w ++ [SetTracerProvider (next_id w)] |}).
Proof.
  unfold Http.setup_tracing. run_prims. run_eq; try reflexivity.
  rewrite alter_insert_eq. reflexivity.
Qed.

Lemma http_setup_metrics_run name res ep tok w :
  Http.setup_metrics name res ep tok w =
  ({| meter_module := name; meter_provider := Some (next_id w) |},
   {| environ := environ w; next_id := S (next_id w);
      providers :=
        <[next_id w :=
            {| prov_signal := metric_signal; prov_resource := res;
               prov_processors :=
                 [PeriodicExportingMetricReader
                    (Http.OTLPMetricExporter (ep +:+ "/v1/metrics")
                       (Http._create_otlp_headers "Metrics" tok))] |}]>
          (providers w);
      TRACER_PROVIDER := TRACER_PROVIDER w;
      METER_PROVIDER := Some (next_id w);
      LOGGER_PROVIDER := LOGGER_PROVIDER w;
      root := root w; loggerDict := loggerDict w;
      calls := calls w ++ [SetMeterProvider (next_id w)] |}).
Proof. unfold Http.setup_metrics. run_prims. reflexivity. Qed.

Lemma http_setup_logging_run name res ep tok w :
  Http.setup_logging name res ep tok w =
  (logger_ref name,
   {| environ := environ w; next_id := S (S (next_id w));
      providers :=
        <[next_id w :=
            {| prov_signal := log_signal; prov_resource := res;
               prov_processors :=
                 [BatchLogRecordProcessor
                    (Http.OTLPLogExporter (ep +:+ "/v1/logs")
                       (Http._create_otlp_headers "Logs" tok))] |}]>
          (providers w);
      TRACER_PROVIDER := TRACER_PROVIDER w;
      METER_PROVIDER := METER_PROVIDER w;
      LOGGER_PROVIDER := Some (next_id w);
      root := {| level := INFO;
                 handlers := handlers (attach (bridge (next_id w)) (root w));
                 propagate := propagate (root w) |};
      loggerDict := if is_root_name name then loggerDict w
                    else register name (loggerDict w);
      calls := calls w ++ [SetLoggerProvider (next_id w);
                           InstrumentLogging true] |}).
Proof.
  unfold Http.setup_logging, logger_ref. run_prims.
  destruct (is_root_name name); run_eq; try reflexivity;
    first [rewrite alter_insert_eq | rewrite <- app_assoc]; reflexivity.
Qed.

Lemma flask_setup_instrumentation_run name app service_name w :
  Flask.setup_instrumentation name app service_name w =
  let n := next_id w in
  let res := service_resource n service_name in
  let ep := resolved "http://localhost:4317" w in
  ((logger_ref name,
    {| tracer_module := name; tracer_provider := Some (1 + n) |},
    {| meter_module := name; meter_provider := Some (2 + n) |}),
   {| environ := environ w; next_id := 5 + n;
      providers :=
        <[3 + n :=
            {| prov_signal := log_signal; prov_resource := res;
               prov_processors :=
                 [BatchLogRecordProcessor (Flask.OTLPLogExporter ep)] |}]>
        (<[2 + n :=
            {| prov_signal := metric_signal; prov_resource := res;
               prov_processors :=
                 [PeriodicExportingMetricReader
                    (Flask.OTLPMetricExporter ep)] |}]>
        (<[1 + n :=
            {| prov_signal := trace_signal; prov_resource := res;
               prov_processors :=
                 [BatchSpanProcessor (Flask.OTLPSpanExporter ep)] |}]>
         (providers w)));
      TRACER_PROVIDER := Some (1 + n);
      METER_PROVIDER := Some (2 + n);
      LOGGER_PROVIDER := Some (3 + n);
      root := {| level := INFO;
                 handlers := handlers (attach (bridge (3 + n)) (root w));
                 propagate := propagate (root w) |};
      loggerDict := if is_root_name name then loggerDict w
                    else register name (loggerDict w);
      calls := calls w ++ [InstrumentFlaskApp app;
                           SetTracerProvider (1 + n);
                           SetMeterProvider (2 + n);
                           SetLoggerProvider (3 + n);
                           InstrumentLogging true] |}).
Proof.
  unfold Flask.setup_instrumentation. run_prims.
  rewrite flask_setup_tracing_run. cbn.
  rewrite flask_setup_metrics_run. cbn.
  rewrite flask_setup_logging_run. cbn.
  run_eq; try reflexivity.
  rewrite <- !app_assoc. reflexivity.
Qed.

Lemma http_setup_instrumentation_run name service_name w :
  Http.setup_instrumentation name service_name w =
  let n := next_id w in
  let res := service_resource n service_name in
  let ep := resolved "http://localhost:4318" w in
  let tok := environ w !! "OTEL_EXPORTER_OTLP_BEARER_TOKEN" in
  ((logger_ref name,
    {| tracer_module := name; tracer_provider := Some (1 + n) |},
    {| meter_module := name; meter_provider := Some (2 + n) |}),
   {| environ := environ w; next_id := 5 + n;
      providers :=
        <[3 + n :=
            {| prov_signal := log_signal; prov_resource := res;
               prov_processors :=
                 [BatchLogRecordProcessor
                    (Http.OTLPLogExporter (ep +:+ "/v1/logs")
                       (Http._create_otlp_headers "Logs" tok))] |}]>
        (<[2 + n :=
            {| prov_signal := metric_signal; prov_resource := res;
               prov_processors :=
                 [PeriodicExportingMetricReader
                    (Http.OTLPMetricExporter (ep +:+ "/v1/metrics")
                       (Http._create_otlp_headers "Metrics" tok))] |}]>
        (<[1 + n :=
            {| prov_signal := trace_signal; prov_resource := res;
               prov_processors :=
                 [BatchSpanProcessor
                    (Http.OTLPSpanExporter (ep +:+ "/v1/traces")
                       (Http._create_otlp_headers "Tracing" tok))] |}]>
         (providers w)));
      TRACER_PROVIDER := Some (1 + n);
      METER_PROVIDER := Some (2 + n);
      LOGGER_PROVIDER := Some (3 + n);
      root := {| level := INFO;
                 handlers := handlers (attach (bridge (3 + n)) (root w));
                 propagate := propagate (root w) |};
      loggerDict := if is_root_name name then loggerDict w
                    else register name (loggerDict w);
      calls := calls w ++ [InstrumentRequests; InstrumentURLLib3;
                           SetTracerProvider (1 + n);
                           SetMeterProvider (2 + n);
                           SetLoggerProvider (3 + n);
                           InstrumentLogging true] |}).
Proof.
  unfold Http.setup_instrumentation. run_prims.
  rewrite http_setup_tracing_run. cbn.
  rewrite http_setup_metrics_run. cbn.
  rewrite http_setup_logging_run. cbn.
  run_eq; try reflexivity.
  rewrite <- !app_assoc. reflexivity.
Qed.

(** * The providers an orchestrator run leaves registered *)

Ltac heap_lookup :=
  repeat first [rewrite lookup_insert_eq | rewrite lookup_insert_ne by lia].

Lemma flask_registered name app service_name w :
  let w' := after (Flask.setup_instrumentation name app service_name) w in
  let res := service_resource (next_id w) service_name in
  let ep := resolved "http://localhost:4317" w in
  get_tracer_provider w' =
    Some {| prov_signal := trace_signal; prov_resource := res;
            prov_processors :=
              [BatchSpanProcessor (Flask.OTLPSpanExporter ep)] |}
  ∧ get_meter_provider w' =
    Some {| prov_signal := metric_signal; prov_resource := res;
            prov_processors :=
              [PeriodicExportingMetricReader (Flask.OTLPMetricExporter ep)] |}
  ∧ get_logger_provider w' =
    Some {| prov_signal := log_signal; prov_resource := res;
            prov_processors :=
              [BatchLogRecordProcessor (Flask.OTLPLogExporter ep)] |}.
Proof.
  unfold after. rewrite flask_setup_instrumentation_run.
  unfold get_tracer_provider, get_meter_provider, get_logger_provider.
  cbn -[resolved service_resource]. heap_lookup. auto.
Qed.

Lemma http_registered name service_name w :
  let w' := after (Http.setup_instrumentation name service_name) w in
  let res := service_resource (next_id w) service_name in
  let ep := resolved "http://localhost:4318" w in
  let tok := environ w !! "OTEL_EXPORTER_OTLP_BEARER_TOKEN" in
  get_tracer_provider w' =
    Some {| prov_signal := trace_signal; prov_resource := res;
            prov_processors :=
              [BatchSpanProcessor
                 (Http.OTLPSpanExporter (ep +:+ "/v1/traces")
                    (Http._create_otlp_headers "Tracing" tok))] |}
  ∧ get_meter_provider w' =
    Some {| prov_signal := metric_signal; prov_resource := res;
            prov_processors :=
              [PeriodicExportingMetricReader
                 (Http.OTLPMetricExporter (ep +:+ "/v1/metrics")
                    (Http._create_otlp_headers "Metrics" tok))] |}
  ∧ get_logger_provider w' =
    Some {| prov_signal := log_signal; prov_resource := res;
            prov_processors :=
              [BatchLogRecordProcessor
                 (Http.OTLPLogExporter (ep +:+ "/v1/logs")
                    (Http._create_otlp_headers "Logs" tok))] |}.
Proof.
  unfold after. rewrite http_setup_instrumentation_run.
  unfold get_tracer_provider, get_meter_provider, get_logger_provider.
  cbn -[resolved service_resource Http._create_otlp_headers String.append].
  heap_lookup. auto.
Qed.

(** * Resource, endpoint and orchestration *)

(** C1. For every service name, the empty string included, every provider
    registered by either orchestrator carries a resource whose attribute
    mapping has exactly one entry, [service.name], bound to that name.  The
    orchestrators are total: no name is rejected. *)
Theorem resource_has_the_service_name name app service_name w :
  let wf := after (Flask.setup_instrumentation name app service_name) w in
  let wh := after (Http.setup_instrumentation name service_name) w in
  ∃ m : gmap string string,
    (attributes ∘ prov_resource <$> get_tracer_provider wf = Some m
     ∧ attributes ∘ prov_resource <$> get_meter_provider wf = Some m
     ∧ attributes ∘ prov_resource <$> get_logger_provider wf = Some m
     ∧ attributes ∘ prov_resource <$> get_tracer_provider wh = Some m
     ∧ attributes ∘ prov_resource <$> get_meter_provider wh = Some m
     ∧ attributes ∘ prov_resource <$> get_logger_provider wh = Some m)
    ∧ m !! SERVICE_NAME = Some service_name
    ∧ size m = 1.
Proof.
  intros wf wh. exists {[ SERVICE_NAME := service_name ]}.
  destruct (flask_registered name app service_name w) as (Ht & Hm & Hl).
  destruct (http_registered name service_name w) as (Ht' & Hm' & Hl').
  subst wf wh. rewrite Ht, Hm, Hl, Ht', Hm', Hl'.
  split; [repeat split |].
  split; [apply lookup_singleton_eq | apply map_size_singleton].
Qed.

(** C3. Without [OTEL_EXPORTER_OTLP_ENDPOINT] in the environment the Flask
    (gRPC) orchestrator points its exporters at [http://localhost:4317] and
    the HTTP orchestrator resolves [http://localhost:4318], to which it
    appends the signal path; a value found in the environment is used as it
    is. *)
Theorem endpoint_resolution name app service_name w :
  let E := environ w !! "OTEL_EXPORTER_OTLP_ENDPOINT" in
  let grpc_ep := match E with Some v => v | None => "http://localhost:4317" end in
  let http_ep := match E with Some v => v | None => "http://localhost:4318" end in
  let wf := after (Flask.setup_instrumentation name app service_name) w in
  let wh := after (Http.setup_instrumentation name service_name) w in
  exp_endpoint <$> exporters (get_tracer_provider wf) = [grpc_ep]
  ∧ exp_endpoint <$> exporters (get_meter_provider wf) = [grpc_ep]
  ∧ exp_endpoint <$> exporters (get_logger_provider wf) = [grpc_ep]
  ∧ exp_endpoint <$> exporters (get_tracer_provider wh) = [http_ep +:+ "/v1/traces"]
  ∧ exp_endpoint <$> exporters (get_meter_provider wh) = [http_ep +:+ "/v1/metrics"]
  ∧ exp_endpoint <$> exporters (get_logger_provider wh) = [http_ep +:+ "/v1/logs"].
Proof.
  intros E grpc_ep http_ep wf wh.
  destruct (flask_registered name app service_name w) as (Ht & Hm & Hl).
  destruct (http_registered name service_name w) as (Ht' & Hm' & Hl').
  subst wf wh. rewrite Ht, Hm, Hl, Ht', Hm', Hl'.
  subst grpc_ep http_ep. unfold resolved. fold E.
  destruct E; repeat split.
Qed.


(** C5. After the Flask orchestrator has run with a service name, a trace,
    a metric and a log provider are registered, and all three hold one and
    the same resource object, the one built from that name. *)
Theorem flask_providers_share_the_resource name app service_name w :
  let w' := after (Flask.setup_instrumentation name app service_name) w in
  ∃ r : Resource,
    attributes r = {[ SERVICE_NAME := service_name ]}
    ∧ prov_resource <$> get_tracer_provider w' = Some r
    ∧ prov_resource <$> get_meter_provider w' = Some r
    ∧ prov_resource <$> get_logger_provider w' = Some r.
Proof.
  intros w'. exists (service_resource (next_id w) service_name).
  destruct (flask_registered name app service_name w) as (Ht & Hm & Hl).
  subst w'. rewrite Ht, Hm, Hl. repeat split.
Qed.

(** * Headers *)

Lemma headers_target L tok :
  Http._create_otlp_headers L tok !! "x-observe-target-package" = Some L.
Proof.
  unfold Http._create_otlp_headers. destruct (Http.truthy tok).
  - rewrite lookup_insert_ne by discriminate. apply lookup_singleton_eq.
  - apply lookup_singleton_eq.
Qed.

Lemma headers_without_token L :
  Http._create_otlp_headers L None = {[ "x-observe-target-package" := L ]}.
Proof. reflexivity. Qed.

Lemma headers_with_empty_token L :
  Http._create_otlp_headers L (Some "") = {[ "x-observe-target-package" := L ]}.
Proof. reflexivity. Qed.

Lemma headers_with_token L T :
  T ≠ "" →
  Http._create_otlp_headers L (Some T) =
    <[ "Authorization" := "Bearer " +:+ T ]>
      {[ "x-observe-target-package" := L ]}.
Proof.
  intros HT. unfold Http._create_otlp_headers, Http.truthy.
  rewrite bool_decide_eq_false_2 by done. reflexivity.
Qed.

(** C2, as stated, fails for the empty token: the builder is called with a
    token, yet the mapping it returns is not the target entry plus an
    [Authorization] entry. *)
Lemma headers_empty_token_counterexample :
  Http._create_otlp_headers "Tracing" (Some "") ≠
    <[ "Authorization" := "Bearer " +:+ "" ]>
      {[ "x-observe-target-package" := "Tracing" ]}.
Proof.
  intros H.
  assert (Hl : Http._create_otlp_headers "Tracing" (Some "") !! "Authorization"
               = Some ("Bearer " +:+ "")).
  { rewrite H. apply lookup_insert_eq. }
  vm_compute in Hl. discriminate Hl.
Qed.

(** C2, amended.  For every target label [L]: without a token the header
    builder returns the single entry [x-observe-target-package ↦ L]; with a
    non-empty token [T] it returns that entry plus
    [Authorization ↦ "Bearer " ++ T] and nothing else. *)
Theorem headers_built L T :
  T ≠ "" →
  (Http._create_otlp_headers L None = {[ "x-observe-target-package" := L ]}
   ∧ size (Http._create_otlp_headers L None) = 1)
  ∧ (Http._create_otlp_headers L (Some T) =
       <[ "Authorization" := "Bearer " +:+ T ]>
         {[ "x-observe-target-package" := L ]}
     ∧ Http._create_otlp_headers L (Some T) !! "x-observe-target-package"
       = Some L
     ∧ Http._create_otlp_headers L (Some T) !! "Authorization"
       = Some ("Bearer " +:+ T)
     ∧ size (Http._create_otlp_headers L (Some T)) = 2).
Proof.
  intros HT. split.
  - rewrite headers_without_token. split; [done | apply map_size_singleton].
  - rewrite headers_with_token by done. split; [done |].
    split; [| split].
    + rewrite lookup_insert_ne by discriminate. apply lookup_singleton_eq.
    + apply lookup_insert_eq.
    + rewrite map_size_insert_None.
      * by rewrite map_size_singleton.
      * by rewrite lookup_singleton_ne.
Qed.

Lemma headers_built_witness :
  "s3cr3t" ≠ ""
  ∧ (Http._create_otlp_headers "Metrics" None
       = {[ "x-observe-target-package" := "Metrics" ]}
     ∧ size (Http._create_otlp_headers "Metrics" None) = 1)
  ∧ (Http._create_otlp_headers "Metrics" (Some "s3cr3t") =
       <[ "Authorization" := "Bearer " +:+ "s3cr3t" ]>
         {[ "x-observe-target-package" := "Metrics" ]}
     ∧ Http._create_otlp_headers "Metrics" (Some "s3cr3t")
         !! "x-observe-target-package" = Some "Metrics"
     ∧ Http._create_otlp_headers "Metrics" (Some "s3cr3t") !! "Authorization"
       = Some ("Bearer " +:+ "s3cr3t")
     ∧ size (Http._create_otlp_headers "Metrics" (Some "s3cr3t")) = 2).
Proof.
  split; [discriminate |].
  apply (headers_built "Metrics" "s3cr3t"). discriminate.
Defined.

(** C8. In the HTTP variant each setup constructs its one exporter with the
    endpoint and the routing label of its own signal: [/v1/traces] with
    [Tracing], [/v1/metrics] with [Metrics], [/v1/logs] with [Logs], for
    every base endpoint [E]. *)
Theorem http_exporters_per_signal name res E tok w :
  (exporters (get_tracer_provider (after (Http.setup_tracing name res E tok) w))
     = [ {| exp_signal := trace_signal; exp_protocol := http;
            exp_endpoint := E +:+ "/v1/traces";
            exp_headers := Some (Http._create_otlp_headers "Tracing" tok) |} ]
   ∧ Http._create_otlp_headers "Tracing" tok !! "x-observe-target-package"
     = Some "Tracing")
  ∧ (exporters (get_meter_provider (after (Http.setup_metrics name res E tok) w))
       = [ {| exp_signal := metric_signal; exp_protocol := http;
              exp_endpoint := E +:+ "/v1/metrics";
              exp_headers := Some (Http._create_otlp_headers "Metrics" tok) |} ]
     ∧ Http._create_otlp_headers "Metrics" tok !! "x-observe-target-package"
       = Some "Metrics")
  ∧ (exporters (get_logger_provider (after (Http.setup_logging name res E tok) w))
       = [ {| exp_signal := log_signal; exp_protocol := http;
              exp_endpoint := E +:+ "/v1/logs";
              exp_headers := Some (Http._create_otlp_headers "Logs" tok) |} ]
     ∧ Http._create_otlp_headers "Logs" tok !! "x-observe-target-package"
       = Some "Logs").
Proof.
  unfold after.
  rewrite http_setup_tracing_run, http_setup_metrics_run,
    http_setup_logging_run.
  unfold get_tracer_provider, get_meter_provider, get_logger_provider.
  cbn -[Http._create_otlp_headers String.append].
  rewrite !lookup_insert_eq, !headers_target. repeat split.
Qed.

(** C9. With the bearer-token variable set to the empty string the header
    builder returns what it returns without a token, a mapping with no
    [Authorization] entry, and so do the headers of the three exporters the
    HTTP orchestrator constructs. *)
Theorem empty_token_sends_no_authorization name service_name L w :
  environ w !! "OTEL_EXPORTER_OTLP_BEARER_TOKEN" = Some "" →
  let tok := environ w !! "OTEL_EXPORTER_OTLP_BEARER_TOKEN" in
  let w' := after (Http.setup_instrumentation name service_name) w in
  Http._create_otlp_headers L tok = Http._create_otlp_headers L None
  ∧ Http._create_otlp_headers L tok !! "Authorization" = None
  ∧ exp_headers <$> exporters (get_tracer_provider w')
    = [Some {[ "x-observe-target-package" := "Tracing" ]}]
  ∧ exp_headers <$> exporters (get_meter_provider w')
    = [Some {[ "x-observe-target-package" := "Metrics" ]}]
  ∧ exp_headers <$> exporters (get_logger_provider w')
    = [Some {[ "x-observe-target-package" := "Logs" ]}].
Proof.
  intros Htok tok w'.
  destruct (http_registered name service_name w) as (Ht & Hm & Hl).
  subst w' tok. rewrite Ht, Hm, Hl, Htok.
  cbn -[Http._create_otlp_headers]. rewrite !headers_with_empty_token.
  repeat split.
Qed.

Lemma empty_token_sends_no_authorization_witness :
  let w := boot {[ "OTEL_EXPORTER_OTLP_BEARER_TOKEN" := "" ]} in
  environ w !! "OTEL_EXPORTER_OTLP_BEARER_TOKEN" = Some ""
  ∧ (let tok := environ w !! "OTEL_EXPORTER_OTLP_BEARER_TOKEN" in
     let w' := after (Http.setup_instrumentation "otel" "checkout") w in
     Http._create_otlp_headers "Logs" tok = Http._create_otlp_headers "Logs" None
     ∧ Http._create_otlp_headers "Logs" tok !! "Authorization" = None
     ∧ exp_headers <$> exporters (get_tracer_provider w')
       = [Some {[ "x-observe-target-package" := "Tracing" ]}]
     ∧ exp_headers <$> exporters (get_meter_provider w')
       = [Some {[ "x-observe-target-package" := "Metrics" ]}]
     ∧ exp_headers <$> exporters (get_logger_provider w')
       = [Some {[ "x-observe-target-package" := "Logs" ]}]).
Proof.
  split; [reflexivity |].
  apply (empty_token_sends_no_authorization "otel" "checkout" "Logs"
           (boot {[ "OTEL_EXPORTER_OTLP_BEARER_TOKEN" := "" ]})).
  reflexivity.
Defined.

(** * The root logger after a logging setup *)

Lemma attach_elem h l : h ∈ handlers (attach h l).
Proof.
  unfold attach; cbn. case_bool_decide; [done |].
  apply elem_of_app. right. apply list_elem_of_singleton. done.
Qed.

(** C6. After the logging setup of either variant the root logger's level
    is [INFO], and a handler forwarding to the log provider the setup has
    just registered is attached to the root logger. *)
Theorem logging_setup_configures_root name res ep tok w :
  root_bridged (next_id w) (after (Flask.setup_logging name res ep) w)
  ∧ root_bridged (next_id w) (after (Http.setup_logging name res ep tok) w).
Proof.
  unfold after.
  rewrite flask_setup_logging_run, http_setup_logging_run.
  unfold root_bridged, get_logger_provider.
  cbn -[attach bridge INFO Http._create_otlp_headers String.append].
  rewrite !lookup_insert_eq.
  repeat split; first [apply attach_elem | reflexivity].
Qed.

(** * Running an orchestrator twice *)

Lemma flask_slots name app service_name w :
  let w' := after (Flask.setup_instrumentation name app service_name) w in
  next_id w' = 5 + next_id w
  ∧ TRACER_PROVIDER w' = Some (1 + next_id w)
  ∧ METER_PROVIDER w' = Some (2 + next_id w)
  ∧ LOGGER_PROVIDER w' = Some (3 + next_id w).
Proof.
  unfold after. rewrite flask_setup_instrumentation_run. repeat split.
Qed.

Lemma http_slots name service_name w :
  let w' := after (Http.setup_instrumentation name service_name) w in
  next_id w' = 5 + next_id w
  ∧ TRACER_PROVIDER w' = Some (1 + next_id w)
  ∧ METER_PROVIDER w' = Some (2 + next_id w)
  ∧ LOGGER_PROVIDER w' = Some (3 + next_id w).
Proof.
  unfold after. rewrite http_setup_instrumentation_run. repeat split.
Qed.

(** A run leaves the objects allocated before it untouched. *)
Lemma flask_heap_frame name app service_name w p :
  p ≤ next_id w →
  providers (after (Flask.setup_instrumentation name app service_name) w) !! p
  = providers w !! p.
Proof.
  intros Hp. unfold after. rewrite flask_setup_instrumentation_run.
  cbn -[resolved service_resource]. heap_lookup. reflexivity.
Qed.

Lemma http_heap_frame name service_name w p :
  p ≤ next_id w →
  providers (after (Http.setup_instrumentation name service_name) w) !! p
  = providers w !! p.
Proof.
  intros Hp. unfold after. rewrite http_setup_instrumentation_run.
  cbn -[resolved service_resource Http._create_otlp_headers String.append].
  heap_lookup. reflexivity.
Qed.

(** C7. A second run of an orchestrator replaces the registrations of the
    first: the registered trace, metric and log providers are the objects
    the second run created, their resource has the second service name as
    its only attribute, and the first run's providers stay on the heap with
    no slot referring to them. *)
Theorem second_run_replaces_first name app1 app2 s1 s2 w :
  (let w1 := after (Flask.setup_instrumentation name app1 s1) w in
   let w2 := after (Flask.setup_instrumentation name app2 s2) w1 in
   replaced w1 w2 s2)
  ∧ (let w1 := after (Http.setup_instrumentation name s1) w in
     let w2 := after (Http.setup_instrumentation name s2) w1 in
     replaced w1 w2 s2).
Proof.
  split; intros w1 w2.
  - destruct (flask_registered name app1 s1 w) as (Ht1 & Hm1 & Hl1).
    destruct (flask_registered name app2 s2 w1) as (Ht2 & Hm2 & Hl2).
    destruct (flask_slots name app1 s1 w) as (Hn1 & St1 & Sm1 & Sl1).
    destruct (flask_slots name app2 s2 w1) as (Hn2 & St2 & Sm2 & Sl2).
    fold w1 in Ht1, Hm1, Hl1, Hn1, St1, Sm1, Sl1.
    fold w2 in Ht2, Hm2, Hl2, Hn2, St2, Sm2, Sl2.
    unfold replaced. rewrite Ht2, Hm2, Hl2.
    split; [| split; [repeat split | split]].
    + rewrite St1, Sm1, Sl1, St2, Sm2, Sl2, Hn1.
      repeat split; intros [=]; lia.
    + rewrite Ht1, Hm1, Hl1. repeat split; eauto.
    + unfold get_tracer_provider, get_meter_provider, get_logger_provider.
      rewrite St1, Sm1, Sl1. cbn. subst w2.
      rewrite !flask_heap_frame by lia. repeat split.
  - destruct (http_registered name s1 w) as (Ht1 & Hm1 & Hl1).
    destruct (http_registered name s2 w1) as (Ht2 & Hm2 & Hl2).
    destruct (http_slots name s1 w) as (Hn1 & St1 & Sm1 & Sl1).
    destruct (http_slots name s2 w1) as (Hn2 & St2 & Sm2 & Sl2).
    fold w1 in Ht1, Hm1, Hl1, Hn1, St1, Sm1, Sl1.
    fold w2 in Ht2, Hm2, Hl2, Hn2, St2, Sm2, Sl2.
    unfold replaced. rewrite Ht2, Hm2, Hl2.
    split; [| split; [repeat split | split]].
    + rewrite St1, Sm1, Sl1, St2, Sm2, Sl2, Hn1.
      repeat split; intros [=]; lia.
    + rewrite Ht1, Hm1, Hl1. repeat split; eauto.
    + unfold get_tracer_provider, get_meter_provider, get_logger_provider.
      rewrite St1, Sm1, Sl1. cbn. subst w2.
      rewrite !http_heap_frame by lia. repeat split.
Qed.

(** * The returned logger *)










(** * Concrete runs *)

Example ancestors_of_a_dotted_name :
  dotted_prefixes "python.flask.otel" = ["python.flask"; "python"]
  ∧ dotted_prefixes "otel" = []
  ∧ dotted_prefixes ".otel" = []
  ∧ dotted_prefixes "a..b" = ["a."].
Proof. repeat split. Qed.

Example getLogger_root_names :
  result (getLogger None) (boot ∅) = RootLogger
  ∧ result (getLogger (Some "")) (boot ∅) = RootLogger
  ∧ result (getLogger (Some "root")) (boot ∅) = RootLogger
  ∧ result (getLogger (Some "otel")) (boot ∅) = NamedLogger "otel".
Proof. repeat split. Qed.

Example headers_for_metrics :
  Http._create_otlp_headers "Metrics" None
    = {[ "x-observe-target-package" := "Metrics" ]}
  ∧ Http._create_otlp_headers "Metrics" (Some "")
    = {[ "x-observe-target-package" := "Metrics" ]}
  ∧ Http._create_otlp_headers "Metrics" (Some "abc") !! "Authorization"
    = Some "Bearer abc".
Proof. repeat split. Qed.

Example flask_run_with_empty_service_name :
  let w' := after (Flask.setup_instrumentation "otel" (mkFlaskApp "app") "")
              (boot ∅) in
  attributes ∘ prov_resource <$> get_tracer_provider w'
    = Some {[ "service.name" := "" ]}
  ∧ exp_endpoint <$> exporters (get_logger_provider w')
    = ["http://localhost:4317"]
  ∧ level (root w') = 20
  ∧ handlers (root w') = [bridge 3]
  ∧ log w' (NamedLogger "otel") INFO = [bridge 3]
  ∧ log w' (NamedLogger "otel") DEBUG = []
  ∧ log (stop_propagation "otel" w') (NamedLogger "otel") WARNING = [].
Proof. vm_compute. repeat split. Qed.

Example http_run_with_endpoint_and_token :
  let env : gmap string string :=
    {[ "OTEL_EXPORTER_OTLP_ENDPOINT" := "https://collect.example";
       "OTEL_EXPORTER_OTLP_BEARER_TOKEN" := "abc" ]} in
  let w' := after (Http.setup_instrumentation "otel" "checkout") (boot env) in
  exporters (get_meter_provider w') =
    [ {| exp_signal := metric_signal; exp_protocol := http;
         exp_endpoint := "https://collect.example/v1/metrics";
         exp_headers :=
           Some {[ "x-observe-target-package" := "Metrics";
                   "Authorization" := "Bearer abc" ]} |} ]
  ∧ calls w' = [InstrumentRequests; InstrumentURLLib3; SetTracerProvider 1;
                SetMeterProvider 2; SetLoggerProvider 3;
                InstrumentLogging true].
Proof. vm_compute. repeat split. Qed.

(** * Further properties of the header builder *)

Lemma string_app_inj (s a b : string) : s +:+ a = s +:+ b → a = b.
Proof.
  induction s as [| c s IH]; intros H; [exact H |].
  change (String c (s +:+ a) = String c (s +:+ b)) in H.
  injection H as H. by apply IH.
Qed.

Lemma headers_authorization L tok :
  Http._create_otlp_headers L tok !! "Authorization" =
    if Http.truthy tok then Some ("Bearer " +:+ default "" tok) else None.
Proof.
  unfold Http._create_otlp_headers. destruct (Http.truthy tok).
  - apply lookup_insert_eq.
  - by rewrite lookup_singleton_ne.
Qed.

(** X1. With a non-empty bearer token in the environment, each of the three
    exporters the HTTP orchestrator constructs is given exactly two headers:
    the routing label of its own signal and [Authorization: Bearer T]. *)
Theorem token_reaches_every_exporter name service_name T w :
  environ w !! "OTEL_EXPORTER_OTLP_BEARER_TOKEN" = Some T →
  T ≠ "" →
  let w' := after (Http.setup_instrumentation name service_name) w in
  exp_headers <$> exporters (get_tracer_provider w')
    = [Some (authenticated "Tracing" T)]
  ∧ exp_headers <$> exporters (get_meter_provider w')
    = [Some (authenticated "Metrics" T)]
  ∧ exp_headers <$> exporters (get_logger_provider w')
    = [Some (authenticated "Logs" T)]
  ∧ size (authenticated "Tracing" T) = 2.
Proof.
  intros Htok HT w'.
  destruct (http_registered name service_name w) as (Ht & Hm & Hl).
  subst w'. rewrite Ht, Hm, Hl, Htok.
  cbn -[Http._create_otlp_headers]. rewrite !headers_with_token by done.
  repeat split.
Qed.

Lemma token_reaches_every_exporter_witness :
  let w := boot {[ "OTEL_EXPORTER_OTLP_BEARER_TOKEN" := "s3cr3t" ]} in
  let w' := after (Http.setup_instrumentation "otel" "checkout") w in
  environ w !! "OTEL_EXPORTER_OTLP_BEARER_TOKEN" = Some "s3cr3t"
  ∧ "s3cr3t" ≠ ""
  ∧ exp_headers <$> exporters (get_tracer_provider w')
    = [Some (authenticated "Tracing" "s3cr3t")]
  ∧ exp_headers <$> exporters (get_meter_provider w')
    = [Some (authenticated "Metrics" "s3cr3t")]
  ∧ exp_headers <$> exporters (get_logger_provider w')
    = [Some (authenticated "Logs" "s3cr3t")]
  ∧ size (authenticated "Tracing" "s3cr3t") = 2.
Proof.
  cbv zeta. split; [reflexivity |]. split; [discriminate |].
  apply (token_reaches_every_exporter "otel" "checkout" "s3cr3t"
           (boot {[ "OTEL_EXPORTER_OTLP_BEARER_TOKEN" := "s3cr3t" ]}));
    [reflexivity | discriminate].
Defined.

(** X2. The Flask variant never authenticates: its exporters are constructed
    without headers, and setting the bearer-token variable to any value
    before the run changes none of the providers it registers. *)
Theorem flask_ignores_the_token name app service_name T w :
  let w0 := after (Flask.setup_instrumentation name app service_name) w in
  let wT := after (Flask.setup_instrumentation name app service_name)
              (setenv "OTEL_EXPORTER_OTLP_BEARER_TOKEN" T w) in
  (exp_headers <$> exporters (get_tracer_provider wT) = [None]
   ∧ exp_headers <$> exporters (get_meter_provider wT) = [None]
   ∧ exp_headers <$> exporters (get_logger_provider wT) = [None])
  ∧ get_tracer_provider wT = get_tracer_provider w0
  ∧ get_meter_provider wT = get_meter_provider w0
  ∧ get_logger_provider wT = get_logger_provider w0.
Proof.
  intros w0 wT.
  destruct (flask_registered name app service_name w) as (Ht & Hm & Hl).
  destruct (flask_registered name app service_name
              (setenv "OTEL_EXPORTER_OTLP_BEARER_TOKEN" T w))
    as (Ht' & Hm' & Hl').
  subst w0 wT. rewrite Ht, Hm, Hl, Ht', Hm', Hl'.
  assert (Hep : resolved "http://localhost:4317"
                  (setenv "OTEL_EXPORTER_OTLP_BEARER_TOKEN" T w)
                = resolved "http://localhost:4317" w).
  { unfold resolved, setenv. cbn. by rewrite lookup_insert_ne. }
  rewrite Hep. repeat split.
Qed.

(** X3. The header builder loses nothing it was given: two calls that return
    the same mapping were made with the same label, and with the same token
    unless both tokens are absent or empty. *)
Theorem headers_determine_their_inputs L1 L2 tok1 tok2 :
  Http._create_otlp_headers L1 tok1 = Http._create_otlp_headers L2 tok2 →
  L1 = L2
  ∧ Http.truthy tok1 = Http.truthy tok2
  ∧ (if Http.truthy tok1 then tok1 = tok2 else True).
Proof.
  intros H.
  assert (HL : Http._create_otlp_headers L1 tok1 !! "x-observe-target-package"
               = Http._create_otlp_headers L2 tok2 !! "x-observe-target-package")
    by (by rewrite H).
  assert (HA : Http._create_otlp_headers L1 tok1 !! "Authorization"
               = Http._create_otlp_headers L2 tok2 !! "Authorization")
    by (by rewrite H).
  rewrite !headers_target in HL. rewrite !headers_authorization in HA.
  split; [by injection HL |].
  destruct tok1 as [t1 |], tok2 as [t2 |]; cbn in *;
    repeat case_bool_decide; subst; cbn in *; try done.
  injection HA as HA. apply string_app_inj in HA. by subst.
Qed.

Lemma headers_determine_their_inputs_witness :
  Http._create_otlp_headers "Logs" (Some "") = Http._create_otlp_headers "Logs" None
  ∧ "Logs" = "Logs"
  ∧ Http.truthy (Some "") = Http.truthy None
  ∧ (if Http.truthy (Some "") then Some "" = None else True).
Proof.
  split; [reflexivity |].
  apply (headers_determine_their_inputs "Logs" "Logs" (Some "") None).
  reflexivity.
Defined.

(** X4. The two header entries are independent and there is no third one:
    the [Authorization] entry is the same for every label, the routing entry
    is the label whatever the token, and every other key is absent. *)
Theorem headers_entries_are_independent L1 L2 tok k :
  Http._create_otlp_headers L1 tok !! "Authorization"
    = Http._create_otlp_headers L2 tok !! "Authorization"
  ∧ Http._create_otlp_headers L1 tok !! "x-observe-target-package" = Some L1
  ∧ (k ≠ "x-observe-target-package" → k ≠ "Authorization" →
     Http._create_otlp_headers L1 tok !! k = None)
  ∧ (1 ≤ size (Http._create_otlp_headers L1 tok) ≤ 2).
Proof.
  rewrite !headers_authorization, headers_target.
  split; [done |]. split; [done |]. split.
  - intros Hk1 Hk2. unfold Http._create_otlp_headers.
    destruct (Http.truthy tok).
    + rewrite lookup_insert_ne by done. by rewrite lookup_singleton_ne.
    + by rewrite lookup_singleton_ne.
  - unfold Http._create_otlp_headers. destruct (Http.truthy tok).
    + rewrite map_size_insert_None by (by rewrite lookup_singleton_ne).
      rewrite map_size_singleton. lia.
    + rewrite map_size_singleton. lia.
Qed.

(** * What the setups change in [logging], and what they leave alone *)











(** * Repeated runs and the root handlers *)











(** * Endpoints, variants and the provider heap *)

(** X10. The Flask variant hands one and the same endpoint to its three
    exporters, whereas the HTTP variant gives each signal a URL of its own:
    for every resolved endpoint the three URLs are pairwise different. *)
Theorem signal_endpoints name app service_name w :
  let wf := after (Flask.setup_instrumentation name app service_name) w in
  let wh := after (Http.setup_instrumentation name service_name) w in
  let endpoints (p : option Provider) := exp_endpoint <$> exporters p in
  (endpoints (get_tracer_provider wf) = endpoints (get_meter_provider wf)
   ∧ endpoints (get_meter_provider wf) = endpoints (get_logger_provider wf))
  ∧ (endpoints (get_tracer_provider wh) ≠ endpoints (get_meter_provider wh)
     ∧ endpoints (get_tracer_provider wh) ≠ endpoints (get_logger_provider wh)
     ∧ endpoints (get_meter_provider wh) ≠ endpoints (get_logger_provider wh)).
Proof.
  intros wf wh endpoints. subst endpoints.
  destruct (flask_registered name app service_name w) as (Ht & Hm & Hl).
  destruct (http_registered name service_name w) as (Ht' & Hm' & Hl').
  subst wf wh. rewrite Ht, Hm, Hl, Ht', Hm', Hl'.
  cbn -[resolved Http._create_otlp_headers].
  split; [by split |].
  repeat split; intros [= H]; apply string_app_inj in H; discriminate H.
Qed.


(** X12. A setup adds its processor to the provider it has just constructed
    and to no other: every provider object that existed before a setup or
    an orchestrator run is the same afterwards. *)
Theorem existing_providers_are_not_mutated
    name app service_name res ep tok w p :
  p < next_id w →
  let same (w' : World) : Prop := providers w' !! p = providers w !! p in
  same (after (Flask.setup_tracing name res ep) w)
  ∧ same (after (Flask.setup_metrics name res ep) w)
  ∧ same (after (Flask.setup_logging name res ep) w)
  ∧ same (after (Http.setup_tracing name res ep tok) w)
  ∧ same (after (Http.setup_metrics name res ep tok) w)
  ∧ same (after (Http.setup_logging name res ep tok) w)
  ∧ same (after (Flask.setup_instrumentation name app service_name) w)
  ∧ same (after (Http.setup_instrumentation name service_name) w).
Proof.
  intros Hp same. subst same. cbv beta.
  rewrite flask_heap_frame, http_heap_frame by lia.
  unfold after.
  rewrite flask_setup_tracing_run, flask_setup_metrics_run,
    flask_setup_logging_run, http_setup_tracing_run, http_setup_metrics_run,
    http_setup_logging_run.
  cbn -[Http._create_otlp_headers].
  rewrite !lookup_insert_ne by lia. repeat split.
Qed.

Lemma existing_providers_are_not_mutated_witness :
  0 < next_id (after (Flask.setup_tracing "otel" (service_resource 7 "a")
            "http://localhost:4317") (boot ∅))
  ∧ (let same (w' : World) : Prop :=
       providers w' !! 0 = providers (after (Flask.setup_tracing "otel" (service_resource 7 "a")
            "http://localhost:4317") (boot ∅)) !! 0 in
     same (after (Flask.setup_tracing "otel" (service_resource 8 "b")
                    "http://localhost:4318") (after (Flask.setup_tracing "otel" (service_resource 7 "a")
            "http://localhost:4317") (boot ∅)))
     ∧ same (after (Flask.setup_metrics "otel" (service_resource 8 "b")
                      "http://localhost:4318") (after (Flask.setup_tracing "otel" (service_resource 7 "a")
            "http://localhost:4317") (boot ∅)))
     ∧ same (after (Flask.setup_logging "otel" (service_resource 8 "b")
                      "http://localhost:4318") (after (Flask.setup_tracing "otel" (service_resource 7 "a")
            "http://localhost:4317") (boot ∅)))
     ∧ same (after (Http.setup_tracing "otel" (service_resource 8 "b")
                      "http://localhost:4318" None) (after (Flask.setup_tracing "otel" (service_resource 7 "a")
            "http://localhost:4317") (boot ∅)))
     ∧ same (after (Http.setup_metrics "otel" (service_resource 8 "b")
                      "http://localhost:4318" None) (after (Flask.setup_tracing "otel" (service_resource 7 "a")
            "http://localhost:4317") (boot ∅)))
     ∧ same (after (Http.setup_logging "otel" (service_resource 8 "b")
                      "http://localhost:4318" None) (after (Flask.setup_tracing "otel" (service_resource 7 "a")
            "http://localhost:4317") (boot ∅)))
     ∧ same (after (Flask.setup_instrumentation "otel" (mkFlaskApp "a") "b")
               (after (Flask.setup_tracing "otel" (service_resource 7 "a")
            "http://localhost:4317") (boot ∅)))
     ∧ same (after (Http.setup_instrumentation "otel" "b") (after (Flask.setup_tracing "otel" (service_resource 7 "a")
            "http://localhost:4317") (boot ∅)))).
Proof.
  split; [vm_compute; lia |].
  apply (existing_providers_are_not_mutated "otel" (mkFlaskApp "a") "b"
           (service_resource 8 "b") "http://localhost:4318" None (after (Flask.setup_tracing "otel" (service_resource 7 "a")
            "http://localhost:4317") (boot ∅)) 0).
  vm_compute; lia.
Defined.

(** * Loggers with a level of their own *)





